(** * rcr: Remote CLI Runner -- a shallow embedding of [rcr.py]

    The program reads a [[remote]] section from an INI file, resolves the
    host's address for display, assembles the argument vector of an [ssh]
    invocation and relays the exit code of that process.

    Python strings are [string]; Python [int] is [Z].  The calls the
    program makes into the interpreter, the standard library and the
    operating system -- [Path.exists], [ConfigParser.read], membership and
    [get] on the parser, [int], [socket.gethostbyname], [subprocess.run] --
    are answered by a [world], each with the outcomes the call can have:
    a value or an exception.  Printing, exiting and the calls that leave
    the process are recorded in an event trace by a small writer/exit
    monad. *)

From Stdlib Require Import ZArith List Ascii String Decimal DecimalString DecimalZ Lia.
From stdpp Require Import gmap strings.

Import ListNotations.
Local Open Scope string_scope.
Local Open Scope list_scope.
Local Open Scope Z_scope.

(** ** Data model *)

(** [@dataclass class RemoteConfig] (rcr.py, lines 18-25). *)
Record RemoteConfig := mkRemoteConfig {
  host : string;
  user : string;
  key : string;
  port : Z
}.

(** Outcome of [config[section].get(option, fallback)]: the value the
    parser finds for the option (in the section or, failing that, among the
    defaults, after interpolation), nothing, in which case the caller's
    fallback is returned, or an exception of the interpolation
    ([InterpolationSyntaxError] for a stray [%], and the like). *)
Inductive get_outcome :=
| Found (value : string)
| NotFound
| GetRaises (name : string).

(** The two questions the program asks a [configparser.ConfigParser]
    after [config.read]: [section in config], and
    [config[section].get(option, ...)]. *)
Record ConfigParser := mkConfigParser {
  contains : string -> bool;
  get : string -> string -> get_outcome
}.

(** What the program meets at [CONFIG_PATH]: [Path.exists] raises (a
    directory on the way may not be searched), the path does not exist,
    [config.read] raises ([MissingSectionHeaderError],
    [DuplicateOptionError], [ParsingError], ...), or the parser has read
    what there is. *)
Inductive config_file_state :=
| ExistsRaises (name : string)
| NoFile
| ReadRaises (name : string)
| Parsed (config : ConfigParser).

(** A section whose values hold no [%]: option names to the values [get]
    hands out as they stand. *)
Abbreviation section := (gmap string string).

(** Outcome of [socket.gethostbyname]: an address, one of the two
    exception classes named in the [except] clause of [resolve_ip]
    ([socket.gaierror] is itself a subclass of [OSError]), or an
    exception outside that family -- the call raises [UnicodeError] when
    the IDNA encoding of the name fails, as for a name with an empty label
    such as [a..b]. *)
Inductive lookup :=
| Address (ip : string)
| gaierror
| OSError
| OtherLookupError (name : string).

(** Outcome of [subprocess.run(ssh_cmd, check=False)]: the process ran to
    completion with a return code, the executable was not found, the user
    interrupted the wait, or another exception left the call. *)
Inductive launch :=
| Completed (returncode : Z)
| FileNotFoundError
| KeyboardInterrupt
| OtherLaunchError (name : string).

(** What the program runs on: the path of the configuration file and
    what is met there, the interpreter's [int] on a [str] ([None] stands
    for [ValueError]), the resolver and the process launcher. *)
Record world := mkWorld {
  CONFIG_PATH : string;
  config_file : config_file_state;
  int : string -> option Z;
  gethostbyname : string -> lookup;
  subprocess_run : list string -> launch
}.

(** Observable actions, in program order.  [Stdout s] and [Stderr s] are
    one [print] call each ([print] ends the text with a newline). *)
Inductive event :=
| PathExists (path : string)
| ConfigRead (path : string)
| Resolve (hostname : string)
| Launch (argv : list string)
| Stdout (text : string)
| Stderr (text : string).

(** ** The effect monad: a trace, and a value, an exit or an exception

    [SysExit code] is a call of [sys.exit(code)]; [Uncaught name] is an
    exception of class [name] that nothing in the program catches. *)

Inductive result (A : Type) :=
| Ret (a : A)
| SysExit (code : Z)
| Uncaught (name : string).
Arguments Ret {A} a.
Arguments SysExit {A} code.
Arguments Uncaught {A} name.

Definition M (A : Type) : Type := list event * result A.

Definition ret {A} (a : A) : M A := ([], Ret a).

Definition bind {A B} (m : M A) (k : A -> M B) : M B :=
  match m with
  | (tr, Ret a) => let (tr', r) := k a in (tr ++ tr', r)
  | (tr, SysExit c) => (tr, SysExit c)
  | (tr, Uncaught e) => (tr, Uncaught e)
  end.

Notation "'let*' x := m 'in' k" := (bind m (fun x => k))
  (at level 10, x pattern, m at level 100, k at level 200).
Notation "m ;; k" := (bind m (fun _ => k))
  (at level 100, k at level 200, right associativity).

Definition emit (e : event) : M unit := ([e], Ret tt).
Definition print (s : string) : M unit := emit (Stdout s).
Definition print_stderr (s : string) : M unit := emit (Stderr s).
Definition sys_exit {A} (code : Z) : M A := ([], SysExit code).
Definition raise {A} (name : string) : M A := ([], Uncaught name).

Definition trace {A} (m : M A) : list event := fst m.
Definition outcome {A} (m : M A) : result A := snd m.

(** ** Builtins used by the program *)

(** [str(n)] for a Python [int]: decimal digits, a leading [-] for a
    negative number, no leading zeros. *)
Definition str (n : Z) : string := NilZero.string_of_int (Z.to_int n).

(** [sep.join(parts)] *)
Fixpoint join (sep : string) (parts : list string) : string :=
  match parts with
  | [] => EmptyString
  | [p] => p
  | p :: rest => p +:+ sep +:+ join sep rest
  end.

Definition nl : string := String (ascii_of_nat 10) EmptyString.

(** Truth value of an optional string: [None] and the empty string are
    false. *)
Definition truthy (v : option string) : bool :=
  match v with
  | Some (String _ _) => true
  | _ => false
  end.

(** [a or b] for an optional string [a]. *)
Definition py_or (a : option string) (b : string) : string :=
  match a with
  | Some (String c s) => String c s
  | _ => b
  end.

(** *** Decimal text

    [py_int] reads ASCII decimal text: the whitespace of C's [isspace]
    around it is dropped, one sign is allowed, and the digits may be
    grouped by single underscores.  On ASCII text this is what [int]
    does, up to the interpreter's limit on the number of digits; beyond
    ASCII [int] knows more digits and spaces, and [py_int] is not meant
    for it.  [py_int] is the inverse of [str] and the [int] of the sample
    machines, whose texts are ASCII; the program itself calls the [int]
    of its [world]. *)
Definition isspace (c : ascii) : bool :=
  let n := N_of_ascii c in
  ((9 <=? n) && (n <=? 13) || (n =? 32))%N.

Definition digit_value (c : ascii) : option Z :=
  let n := Z.of_N (N_of_ascii c) in
  if (48 <=? n) && (n <=? 57) then Some (n - 48) else None.

Fixpoint lstrip (s : string) : string :=
  match s with
  | EmptyString => EmptyString
  | String c rest => if isspace c then lstrip rest else s
  end.

Fixpoint rstrip (s : string) : string :=
  match s with
  | EmptyString => EmptyString
  | String c rest =>
      match rstrip rest with
      | EmptyString => if isspace c then EmptyString else String c EmptyString
      | kept => String c kept
      end
  end.

(** The digits after the first one: a digit, or an underscore followed by
    a digit. *)
Fixpoint digits_from (acc : Z) (s : string) : option Z :=
  match s with
  | EmptyString => Some acc
  | String c rest =>
      match digit_value c with
      | Some d => digits_from (10 * acc + d) rest
      | None =>
          if Ascii.eqb c "_" then
            match rest with
            | String c' rest' =>
                match digit_value c' with
                | Some d => digits_from (10 * acc + d) rest'
                | None => None
                end
            | EmptyString => None
            end
          else None
      end
  end.

Definition parse_digits (s : string) : option Z :=
  match s with
  | String c rest =>
      match digit_value c with
      | Some d => digits_from d rest
      | None => None
      end
  | EmptyString => None
  end.

(** [None] stands for a text that is not a decimal number. *)
Definition py_int (s : string) : option Z :=
  match rstrip (lstrip s) with
  | String c body =>
      if Ascii.eqb c "-" then Z.opp <$> parse_digits body
      else if Ascii.eqb c "+" then parse_digits body
      else parse_digits (String c body)
  | EmptyString => None
  end.

(** ** CommandBuilder *)

(** [build_ssh_command] (rcr.py, lines 83-91). *)
Definition build_ssh_command (cfg : RemoteConfig) (remote_cmd : list string)
  : list string :=
  [ "ssh"; "-i"; key cfg; "-p"; str (port cfg); user cfg +:+ "@" +:+ host cfg ]
  ++ remote_cmd.

Section Program.

Variable w : world.

(** ** ConfigStore *)

(** [remote.get(option)] and [remote.get(option, fallback)] of
    [load_config]: the parser's answer for the [[remote]] section, the
    fallback when there is none, or the parser's exception. *)
Definition remote_get (config : ConfigParser) (name : string)
    (fallback : option string) : M (option string) :=
  match get config "remote" name with
  | Found value => ret (Some value)
  | NotFound => ret fallback
  | GetRaises name => raise name
  end.

(** [load_config] (rcr.py, lines 28-72).  Nothing in it catches an
    exception of [exists], [read] or [get].  The three required values
    are [None] when [get] finds nothing; once [missing] is empty they are
    non-empty strings, which [default] then only unwraps; [port_str] is
    never [None], its fallback being ["22"]. *)
Definition load_config : M RemoteConfig :=
  emit (PathExists (CONFIG_PATH w)) ;;
  match config_file w with
  | ExistsRaises name => raise name
  | NoFile =>
      print_stderr ("Config file not found: " +:+ CONFIG_PATH w) ;;
      print_stderr "Create it with a [remote] section (host, user, key, port)." ;;
      sys_exit 1
  | ReadRaises name =>
      emit (ConfigRead (CONFIG_PATH w)) ;;
      raise name
  | Parsed config =>
      emit (ConfigRead (CONFIG_PATH w)) ;;
      if negb (contains config "remote") then
        print_stderr ("[remote] section missing in " +:+ CONFIG_PATH w) ;;
        sys_exit 1
      else
        let* host := remote_get config "host" None in
        let* user := remote_get config "user" None in
        let* key := remote_get config "key" None in
        let* port := remote_get config "port" (Some "22") in
        let port_str := default "22" port in
        let missing :=
          map fst
            (List.filter (fun nv => negb (truthy (snd nv)))
               [("host", host); ("user", user); ("key", key)]) in
        match missing with
        | _ :: _ =>
            print_stderr
              ("Missing values in [remote] section: " +:+ join ", " missing) ;;
            sys_exit 1
        | [] =>
            match int w port_str with
            | None =>
                print_stderr ("Invalid port in config: " +:+ port_str) ;;
                sys_exit 1
            | Some port =>
                ret (mkRemoteConfig (default "" host) (default "" user)
                       (default "" key) port)
            end
        end
  end.

(** ** HostResolver *)

(** [resolve_ip] (rcr.py, lines 75-80). *)
Definition resolve_ip (host : string) : M string :=
  emit (Resolve host) ;;
  match gethostbyname w host with
  | Address ip => ret ip
  | gaierror | OSError => ret "unknown"
  | OtherLookupError name => raise name
  end.

(** ** Dispatcher *)

(** The banner line of [run_remote_command] (rcr.py, lines 104-105). *)
Definition banner (cfg : RemoteConfig) (remote_cmd : list string)
    (cmd_label : option string) (resolved_ip : string) : string :=
  let label :=
    py_or cmd_label
      (match remote_cmd with
       | first :: _ => first
       | [] => "command"
       end) in
  "Running " +:+ label +:+ " on host " +:+ host cfg +:+ " with IP " +:+ resolved_ip.

Definition ssh_not_found : string :=
  "Error: ssh client not found. Install OpenSSH client and ensure 'ssh' is in PATH.".

(** [run_remote_command] (rcr.py, lines 94-120). *)
Definition run_remote_command (remote_cmd : list string)
    (cmd_label : option string) (show_banner : bool) : M Z :=
  let* cfg := load_config in
  let* resolved_ip := resolve_ip (host cfg) in
  (if show_banner
   then print (banner cfg remote_cmd cmd_label resolved_ip)
   else ret tt) ;;
  let ssh_cmd := build_ssh_command cfg remote_cmd in
  emit (Launch ssh_cmd) ;;
  match subprocess_run w ssh_cmd with
  | Completed returncode => ret returncode
  | FileNotFoundError => print_stderr ssh_not_found ;; ret 1
  | KeyboardInterrupt => ret 130
  | OtherLaunchError name => raise name
  end.

Definition usage : string :=
  "Usage:" +:+ nl +:+
  "  rcr ping <ping-arguments...>" +:+ nl +:+
  "  rcr nslookup <nslookup-arguments...>" +:+ nl +:+
  "  rcr <command> [args...]" +:+ nl +:+ nl +:+
  "Examples:" +:+ nl +:+
  "  rcr ping 8.8.8.8 -c 4" +:+ nl +:+
  "  rcr nslookup example.com" +:+ nl +:+
  "  rcr uname -a" +:+ nl +:+
  "  rcr systemctl status ssh" +:+ nl.

(** [print_usage] (rcr.py, lines 123-136). *)
Definition print_usage : M unit := print_stderr usage.

(** [main] (rcr.py, lines 139-167); [argv] is [sys.argv]. *)
Definition main (argv : list string) : M unit :=
  let argv1 := nth 1 argv "" in
  if (length argv <? 2)%nat || String.eqb argv1 "-h" || String.eqb argv1 "--help"
  then
    print_usage ;;
    sys_exit (if (1 <? length argv)%nat then 0 else 1)
  else
    let command := argv1 in
    if String.eqb command "ping" then
      if (length argv <? 3)%nat then
        print_stderr "rcr ping requires ping arguments." ;;
        print_stderr "Example: rcr ping 8.8.8.8 -c 4" ;;
        sys_exit 1
      else
        let remote_cmd := "ping" :: skipn 2 argv in
        let* code := run_remote_command remote_cmd (Some "ping") true in
        sys_exit code
    else if String.eqb command "nslookup" then
      if (length argv <? 3)%nat then
        print_stderr "rcr nslookup requires a hostname." ;;
        print_stderr "Example: rcr nslookup example.com" ;;
        sys_exit 1
      else
        let remote_cmd := "nslookup" :: skipn 2 argv in
        let* code := run_remote_command remote_cmd (Some "nslookup") true in
        sys_exit code
    else
      let remote_cmd := skipn 1 argv in
      let* code := run_remote_command remote_cmd (Some command) true in
      sys_exit code.

End Program.

(** * Vocabulary of the statements *)

Fixpoint all_chars (p : ascii -> bool) (s : string) : bool :=
  match s with
  | EmptyString => true
  | String c rest => p c && all_chars p rest
  end.

Definition is_digit (c : ascii) : bool :=
  match digit_value c with
  | Some _ => true
  | None => false
  end.

(** [needle] occurs in [text]. *)
Definition occurs_in (needle text : string) : Prop :=
  exists before after, text = before +:+ needle +:+ after.

(** What [get] found, if it found something. *)
Definition found (o : get_outcome) : option string :=
  match o with
  | Found value => Some value
  | NotFound | GetRaises _ => None
  end.

Definition raises (o : get_outcome) : bool :=
  match o with
  | GetRaises _ => true
  | Found _ | NotFound => false
  end.

(** None of the four [get] calls of [load_config] raises. *)
Definition reads_cleanly (config : ConfigParser) : bool :=
  forallb (fun name => negb (raises (get config "remote" name)))
    ["host"; "user"; "key"; "port"].

(** The required options that [load_config] reports as missing, in the
    order of the source's list: those for which [get] finds nothing or an
    empty value. *)
Definition missing_values (config : ConfigParser) : list string :=
  List.filter (fun name => negb (truthy (found (get config "remote" name))))
    ["host"; "user"; "key"].

(** The text handed to [int]: what [get] finds for the port, or ["22"]. *)
Definition port_text (config : ConfigParser) : string :=
  default "22" (found (get config "remote" "port")).

(** Events that reach the network or start a process. *)
Definition network_or_process (e : event) : bool :=
  match e with
  | Resolve _ | Launch _ => true
  | _ => false
  end.

Definition is_stderr (e : event) : bool :=
  match e with
  | Stderr _ => true
  | _ => false
  end.

(** The argument vectors handed to [subprocess.run], in order. *)
Fixpoint launches (tr : list event) : list (list string) :=
  match tr with
  | [] => []
  | Launch argv :: rest => argv :: launches rest
  | _ :: rest => launches rest
  end.



(** Events that look at the configuration file. *)
Definition touches_config (e : event) : bool :=
  match e with
  | PathExists _ | ConfigRead _ => true
  | _ => false
  end.

(** What the [try] block of [run_remote_command] prints and yields for an
    outcome of the launch (rcr.py, lines 109-120). *)
Definition launch_events (r : launch) : list event :=
  match r with
  | FileNotFoundError => [Stderr ssh_not_found]
  | _ => []
  end.

Definition launch_result (r : launch) : result Z :=
  match r with
  | Completed returncode => Ret returncode
  | FileNotFoundError => Ret 1
  | KeyboardInterrupt => Ret 130
  | OtherLaunchError name => Uncaught name
  end.

(** [load_config] ends with the invalid-port diagnostic and status 1. *)
Definition port_rejected (w : world) : Prop :=
  exists text,
    In (Stderr ("Invalid port in config: " +:+ text)) (trace (load_config w))
    /\ outcome (load_config w) = SysExit 1.

(** The parser hands out, for the port of the [[remote]] section, a text
    that [int] does not accept. *)
Definition supplies_unparsable_port (w : world) : Prop :=
  exists (config : ConfigParser) (text : string),
    config_file w = Parsed config /\ contains config "remote" = true
    /\ get config "remote" "port" = Found text /\ int w text = None.

(** [main] gets as far as calling [run_remote_command]: there is a first
    argument, it is not a help flag, and [ping] and [nslookup] come with
    at least one argument of their own (rcr.py, lines 141-163). *)
Definition dispatches (argv : list string) : bool :=
  match argv with
  | _ :: command :: args =>
      negb (String.eqb command "-h" || String.eqb command "--help")
      && negb ((String.eqb command "ping" || String.eqb command "nslookup")
               && match args with [] => true | _ :: _ => false end)
  | _ => false
  end.



(** What [sys.exit(code)] after a computation leaves of its outcome. *)
Definition exit_with (r : result Z) : result unit :=
  match r with
  | Ret code => SysExit code
  | SysExit code => SysExit code
  | Uncaught name => Uncaught name
  end.

(** The same parser, except for what [get] answers for one option of the
    [[remote]] section. *)
Definition with_option (config : ConfigParser) (name : string)
    (answer : get_outcome) : ConfigParser :=
  mkConfigParser (contains config)
    (fun s o =>
       if String.eqb s "remote" && String.eqb o name then answer
       else get config s o).

(** ** Sample machines *)

(** The parser of a file whose sections are the given ones, with no
    defaults and no [%] in any value. *)
Definition plain_parser (sections : gmap string section) : ConfigParser :=
  mkConfigParser
    (fun s => match sections !! s with Some _ => true | None => false end)
    (fun s o =>
       match sections !! s with
       | Some options =>
           match options !! o with
           | Some value => Found value
           | None => NotFound
           end
       | None => NotFound
       end).

(** A resolver in front of which the IDNA encoding refuses [a..b]; other
    names do not resolve. *)
Definition idna_resolver (hostname : string) : lookup :=
  if String.eqb hostname "a..b" then OtherLookupError "UnicodeError"
  else gaierror.

Definition sample_path : string := "/home/op/.remote-cli-runner.ini".

Definition sample_remote : section :=
  <["host" := "box.example"]> (<["user" := "op"]> (<["key" := "/home/op/.ssh/id"]> ∅)).

(** A machine whose file holds one [[remote]] section. *)
Definition sample_world (remote : section) (g : string -> lookup)
    (run : list string -> launch) : world :=
  mkWorld sample_path (Parsed (plain_parser (<["remote" := remote]> ∅))) py_int g run.

(** The same file with [port = 80%] in the section: [get] raises for the
    port. *)
Definition percent_port_world (remote : section) : world :=
  mkWorld sample_path
    (Parsed (with_option (plain_parser (<["remote" := remote]> ∅)) "port"
               (GetRaises "InterpolationSyntaxError")))
    py_int (fun _ => gaierror) (fun _ => Completed 0).


(** * Properties *)

(** ** The monad *)

Lemma bind_ret_l {A B} (a : A) (k : A -> M B) : bind (ret a) k = k a.
Proof. unfold bind, ret. destruct (k a) as [tr r]. reflexivity. Qed.

Lemma bind_emit {B} (e : event) (k : unit -> M B) :
  bind (emit e) k = (e :: trace (k tt), outcome (k tt)).
Proof. unfold bind, emit, trace, outcome. destruct (k tt) as [tr r]. reflexivity. Qed.

Lemma bind_exit {A B} (m : M A) (k : A -> M B) (c : Z) :
  outcome m = SysExit c -> bind m k = (trace m, SysExit c).
Proof. destruct m as [tr r]. simpl. intros ->. reflexivity. Qed.

Lemma bind_value {A B} (m : M A) (k : A -> M B) (a : A) :
  outcome m = Ret a ->
  bind m k = (trace m ++ trace (k a), outcome (k a)).
Proof.
  destruct m as [tr r]. simpl. intros ->. unfold trace, outcome.
  destruct (k a) as [tr' r']. reflexivity.
Qed.

(** ** [str] and [py_int] *)

Lemma is_digit_not_space c : is_digit c = true -> isspace c = false.
Proof.
  unfold is_digit, digit_value, isspace.
  destruct (N_of_ascii c) as [|p]; [discriminate|].
  destruct ((48 <=? Z.of_N (N.pos p)) && (Z.of_N (N.pos p) <=? 57)) eqn:E;
    [|discriminate].
  intros _. apply andb_prop in E as [E1 E2].
  apply Z.leb_le in E1, E2.
  apply orb_false_intro;
    [apply andb_false_intro2; apply N.leb_gt | apply N.eqb_neq]; lia.
Qed.

Lemma lstrip_first c rest :
  isspace c = false -> lstrip (String c rest) = String c rest.
Proof. intros H. simpl. now rewrite H. Qed.

Lemma rstrip_no_space s :
  all_chars (fun c => negb (isspace c)) s = true -> rstrip s = s.
Proof.
  induction s as [|c rest IH]; [reflexivity|].
  simpl. intros H. apply andb_prop in H as [Hc Hrest].
  rewrite (IH Hrest). apply negb_true_iff in Hc. rewrite Hc.
  now destruct rest.
Qed.

Lemma digits_no_space s :
  all_chars is_digit s = true ->
  all_chars (fun c => negb (isspace c)) s = true.
Proof.
  induction s as [|c rest IH]; [reflexivity|].
  simpl. intros H. apply andb_prop in H as [Hc Hrest].
  rewrite (is_digit_not_space c Hc), (IH Hrest). reflexivity.
Qed.

Lemma string_of_uint_digits d :
  all_chars is_digit (NilEmpty.string_of_uint d) = true.
Proof. induction d; simpl; auto. Qed.

Lemma digits_from_step c d acc rest :
  digit_value c = Some d ->
  digits_from acc (String c rest) = digits_from (10 * acc + d) rest.
Proof. intros H. cbn [digits_from]. now rewrite H. Qed.

Ltac eval_digit :=
  repeat match goal with
  | |- context [Z.of_N (N_of_ascii ?c) - 48] =>
      let v := eval vm_compute in (Z.of_N (N_of_ascii c) - 48) in
      change (Z.of_N (N_of_ascii c) - 48) with v
  end.

Lemma digits_from_pos d : forall p : positive,
  digits_from (Z.pos p) (NilEmpty.string_of_uint d)
  = Some (Z.pos (Pos.of_uint_acc d p)).
Proof.
  induction d; intros p; cbn [NilEmpty.string_of_uint Pos.of_uint_acc];
    [reflexivity|..];
    (erewrite digits_from_step by reflexivity);
    rewrite <- IHd; f_equal; eval_digit; lia.
Qed.

Lemma digits_from_zero d :
  digits_from 0 (NilEmpty.string_of_uint d) = Some (Z.of_N (Pos.of_uint d)).
Proof.
  induction d; cbn [NilEmpty.string_of_uint Pos.of_uint];
    [reflexivity|..];
    (erewrite digits_from_step by reflexivity);
    eval_digit; [exact IHd|..]; apply digits_from_pos.
Qed.

Lemma parse_digits_uint d :
  d <> Nil ->
  parse_digits (NilEmpty.string_of_uint d) = Some (Z.of_N (Pos.of_uint d)).
Proof.
  intros Hd. rewrite <- digits_from_zero.
  destruct d; [contradiction|..]; reflexivity.
Qed.

Lemma string_of_uint_nonnil d :
  d <> Nil -> NilZero.string_of_uint d = NilEmpty.string_of_uint d.
Proof. destruct d; [contradiction|..]; reflexivity. Qed.

Lemma py_int_digits s :
  all_chars is_digit s = true -> py_int s = parse_digits s.
Proof.
  intros H. unfold py_int.
  rewrite (rstrip_no_space (lstrip s)).
  - destruct s as [|c rest]; [reflexivity|].
    simpl in H. apply andb_prop in H as [Hc _].
    rewrite lstrip_first by now apply is_digit_not_space.
    destruct (Ascii.eqb c "-") eqn:E1.
    { apply Ascii.eqb_eq in E1. subst c. discriminate. }
    destruct (Ascii.eqb c "+") eqn:E2.
    { apply Ascii.eqb_eq in E2. subst c. discriminate. }
    reflexivity.
  - destruct s as [|c rest]; [reflexivity|].
    pose proof H as H'. simpl in H'. apply andb_prop in H' as [Hc _].
    rewrite lstrip_first by now apply is_digit_not_space.
    now apply digits_no_space.
Qed.

Lemma py_int_minus_digits s :
  all_chars is_digit s = true ->
  py_int (String "-" s) = Z.opp <$> parse_digits s.
Proof.
  intros H. unfold py_int.
  rewrite lstrip_first by reflexivity.
  rewrite rstrip_no_space; [reflexivity|].
  simpl. now apply digits_no_space.
Qed.

(** Reading back what [str] printed gives the number printed. *)
Lemma py_int_str (n : Z) : py_int (str n) = Some n.
Proof.
  destruct n as [|p|p]; [reflexivity|..]; unfold str; simpl Z.to_int;
    cbn [NilZero.string_of_int];
    rewrite (string_of_uint_nonnil _ (DecimalPos.Unsigned.to_uint_nonnil p)).
  - rewrite py_int_digits by apply string_of_uint_digits.
    rewrite parse_digits_uint by apply DecimalPos.Unsigned.to_uint_nonnil.
    now rewrite DecimalPos.Unsigned.of_to.
  - rewrite py_int_minus_digits by apply string_of_uint_digits.
    rewrite parse_digits_uint by apply DecimalPos.Unsigned.to_uint_nonnil.
    now rewrite DecimalPos.Unsigned.of_to.
Qed.

(** ** CommandBuilder *)

(** C1: [build_ssh_command] returns exactly
    [ssh; -i; key; -p; str port; user@host] followed by the remote
    command, for every configuration and every remote command (the empty
    one included).  The element at position 6 is [user@host], and the
    element after [-p] is the decimal text of the port, which reads back as
    the port. *)
Theorem build_ssh_command_vector (cfg : RemoteConfig) (remote_cmd : list string) :
  build_ssh_command cfg remote_cmd
  = "ssh" :: "-i" :: key cfg :: "-p" :: str (port cfg)
      :: (user cfg +:+ "@" +:+ host cfg) :: remote_cmd
  /\ build_ssh_command cfg [] =
       ["ssh"; "-i"; key cfg; "-p"; str (port cfg); user cfg +:+ "@" +:+ host cfg]
  /\ nth_error (build_ssh_command cfg remote_cmd) 5
     = Some (user cfg +:+ "@" +:+ host cfg)
  /\ nth_error (build_ssh_command cfg remote_cmd) 3 = Some "-p"
  /\ nth_error (build_ssh_command cfg remote_cmd) 4 = Some (str (port cfg))
  /\ py_int (str (port cfg)) = Some (port cfg).
Proof.
  repeat split; try reflexivity. apply py_int_str.
Qed.

(** C8: the remote command is the tail of the argument vector, element
    for element and in order: dropping the six leading arguments gives the
    remote command back, the six leading arguments do not depend on it,
    and the vector is six elements longer than the remote command.  The
    builder is total: it accepts every remote command. *)
Theorem build_ssh_command_passthrough (cfg : RemoteConfig) (remote_cmd : list string) :
  skipn 6 (build_ssh_command cfg remote_cmd) = remote_cmd
  /\ firstn 6 (build_ssh_command cfg remote_cmd) = build_ssh_command cfg []
  /\ build_ssh_command cfg remote_cmd = build_ssh_command cfg [] ++ remote_cmd
  /\ length (build_ssh_command cfg remote_cmd) = (6 + length remote_cmd)%nat
  /\ forall i : nat,
       nth_error (build_ssh_command cfg remote_cmd) (6 + i) = nth_error remote_cmd i.
Proof.
  repeat split; reflexivity.
Qed.

(** ** ConfigStore *)

Section LoadConfig.

Variable w : world.

Lemma load_config_exists_raises name :
  config_file w = ExistsRaises name ->
  load_config w = ([PathExists (CONFIG_PATH w)], Uncaught name).
Proof. intros H. unfold load_config. rewrite H. reflexivity. Qed.

Lemma load_config_no_file :
  config_file w = NoFile ->
  load_config w
  = ([PathExists (CONFIG_PATH w);
      Stderr ("Config file not found: " +:+ CONFIG_PATH w);
      Stderr "Create it with a [remote] section (host, user, key, port)."],
     SysExit 1).
Proof. intros H. unfold load_config. rewrite H. reflexivity. Qed.

Lemma load_config_read_raises name :
  config_file w = ReadRaises name ->
  load_config w
  = ([PathExists (CONFIG_PATH w); ConfigRead (CONFIG_PATH w)], Uncaught name).
Proof. intros H. unfold load_config. rewrite H. reflexivity. Qed.

Lemma load_config_no_section config :
  config_file w = Parsed config ->
  contains config "remote" = false ->
  load_config w
  = ([PathExists (CONFIG_PATH w); ConfigRead (CONFIG_PATH w);
      Stderr ("[remote] section missing in " +:+ CONFIG_PATH w)],
     SysExit 1).
Proof. intros H1 H2. unfold load_config. rewrite H1, H2. reflexivity. Qed.

(** Once the four values are read, what is left of [load_config]: the
    missing-values check, then the port. *)
Lemma load_config_read config :
  config_file w = Parsed config ->
  contains config "remote" = true ->
  reads_cleanly config = true ->
  load_config w
  = match missing_values config with
    | _ :: _ =>
        ([PathExists (CONFIG_PATH w); ConfigRead (CONFIG_PATH w);
          Stderr ("Missing values in [remote] section: "
                  +:+ join ", " (missing_values config))],
         SysExit 1)
    | [] =>
        match int w (port_text config) with
        | None =>
            ([PathExists (CONFIG_PATH w); ConfigRead (CONFIG_PATH w);
              Stderr ("Invalid port in config: " +:+ port_text config)],
             SysExit 1)
        | Some p =>
            ([PathExists (CONFIG_PATH w); ConfigRead (CONFIG_PATH w)],
             Ret (mkRemoteConfig
                    (default "" (found (get config "remote" "host")))
                    (default "" (found (get config "remote" "user")))
                    (default "" (found (get config "remote" "key"))) p))
        end
    end.
Proof.
  intros Hfile Hsec Hclean.
  unfold load_config, remote_get, missing_values, port_text, reads_cleanly in *.
  rewrite Hfile, Hsec. cbn [forallb List.filter] in *.
  destruct (get config "remote" "host") as [[|h hs]| |];
    destruct (get config "remote" "user") as [[|u us]| |];
    destruct (get config "remote" "key") as [[|k ks]| |];
    destruct (get config "remote" "port") as [t| |];
    try discriminate Hclean;
    cbn [List.filter negb truthy found default from_option id];
    try reflexivity;
    cbv beta iota zeta delta [bind emit ret];
    cbn [map List.filter fst snd negb truthy default from_option id app];
    match goal with |- context [int w ?t] => destruct (int w t) end;
    reflexivity.
Qed.

Lemma load_config_get_raises config :
  config_file w = Parsed config ->
  contains config "remote" = true ->
  reads_cleanly config = false ->
  exists name,
    load_config w
    = ([PathExists (CONFIG_PATH w); ConfigRead (CONFIG_PATH w)], Uncaught name).
Proof.
  intros Hfile Hsec Hdirty.
  unfold load_config, remote_get, reads_cleanly in *.
  rewrite Hfile, Hsec. cbn [forallb negb] in *.
  destruct (get config "remote" "host") as [h| |nh];
    [| |exists nh; reflexivity];
    (destruct (get config "remote" "user") as [u| |nu];
     [| |exists nu; reflexivity]);
    (destruct (get config "remote" "key") as [k| |nk];
     [| |exists nk; reflexivity]);
    (destruct (get config "remote" "port") as [t| |np];
     [discriminate Hdirty | discriminate Hdirty | exists np; reflexivity]).
Qed.

Lemma load_config_missing config :
  config_file w = Parsed config ->
  contains config "remote" = true ->
  reads_cleanly config = true ->
  missing_values config <> [] ->
  load_config w
  = ([PathExists (CONFIG_PATH w); ConfigRead (CONFIG_PATH w);
      Stderr ("Missing values in [remote] section: "
              +:+ join ", " (missing_values config))],
     SysExit 1).
Proof.
  intros H1 H2 H3 H4. rewrite (load_config_read config H1 H2 H3).
  destruct (missing_values config); [contradiction | reflexivity].
Qed.

Lemma load_config_bad_port config :
  config_file w = Parsed config ->
  contains config "remote" = true ->
  reads_cleanly config = true ->
  missing_values config = [] ->
  int w (port_text config) = None ->
  load_config w
  = ([PathExists (CONFIG_PATH w); ConfigRead (CONFIG_PATH w);
      Stderr ("Invalid port in config: " +:+ port_text config)],
     SysExit 1).
Proof.
  intros H1 H2 H3 H4 H5. rewrite (load_config_read config H1 H2 H3), H4, H5.
  reflexivity.
Qed.

Lemma load_config_ok config p :
  config_file w = Parsed config ->
  contains config "remote" = true ->
  reads_cleanly config = true ->
  missing_values config = [] ->
  int w (port_text config) = Some p ->
  load_config w
  = ([PathExists (CONFIG_PATH w); ConfigRead (CONFIG_PATH w)],
     Ret (mkRemoteConfig
            (default "" (found (get config "remote" "host")))
            (default "" (found (get config "remote" "user")))
            (default "" (found (get config "remote" "key"))) p)).
Proof.
  intros H1 H2 H3 H4 H5. rewrite (load_config_read config H1 H2 H3), H4, H5.
  reflexivity.
Qed.

End LoadConfig.

(** *** Text lemmas for the diagnostics *)

Lemma append_empty_r (s : string) : s +:+ "" = s.
Proof.
  induction s as [|c s IH]; [reflexivity|].
  change (String c (s +:+ "") = String c s). now rewrite IH.
Qed.

Lemma append_assoc (a b c : string) : (a +:+ b) +:+ c = a +:+ (b +:+ c).
Proof.
  induction a as [|x a IH]; [reflexivity|].
  change (String x ((a +:+ b) +:+ c) = String x (a +:+ (b +:+ c))).
  now rewrite IH.
Qed.

Lemma occurs_in_refl (s : string) : occurs_in s s.
Proof.
  exists "", "". change (s = s +:+ ""). now rewrite append_empty_r.
Qed.

Lemma occurs_in_append_l (needle pre text : string) :
  occurs_in needle text -> occurs_in needle (pre +:+ text).
Proof.
  intros (b & a & ->). exists (pre +:+ b), a. now rewrite append_assoc.
Qed.

Lemma occurs_in_append_r (needle text post : string) :
  occurs_in needle text -> occurs_in needle (text +:+ post).
Proof.
  intros (b & a & ->). exists b, (a +:+ post). now rewrite !append_assoc.
Qed.


Lemma missing_values_spec (config : ConfigParser) (name : string) :
  In name (missing_values config)
  <-> In name ["host"; "user"; "key"]
      /\ truthy (found (get config "remote" name)) = false.
Proof.
  unfold missing_values. rewrite filter_In, negb_true_iff. reflexivity.
Qed.

Lemma missing_values_none (config : ConfigParser) :
  truthy (found (get config "remote" "host")) = true ->
  truthy (found (get config "remote" "user")) = true ->
  truthy (found (get config "remote" "key")) = true ->
  missing_values config = [].
Proof.
  intros Hh Hu Hk. unfold missing_values. cbn [List.filter].
  now rewrite Hh, Hu, Hk.
Qed.

(** Every run of [load_config]: the path check, the read when the path
    exists, then diagnostics; it exits with status 1 when it has written
    one, and otherwise returns a configuration or raises. *)
Lemma load_config_shape (w : world) :
  exists diagnostics,
    trace (load_config w)
    = PathExists (CONFIG_PATH w)
        :: match config_file w with
           | ExistsRaises _ | NoFile => []
           | ReadRaises _ | Parsed _ => [ConfigRead (CONFIG_PATH w)]
           end
        ++ map Stderr diagnostics
    /\ match diagnostics with
       | [] =>
           (exists cfg config,
              outcome (load_config w) = Ret cfg /\ config_file w = Parsed config)
           \/ (exists name, outcome (load_config w) = Uncaught name)
       | _ :: _ => outcome (load_config w) = SysExit 1
       end.
Proof.
  destruct (config_file w) as [name| |name|config] eqn:Hfile.
  - rewrite (load_config_exists_raises w name Hfile). exists [].
    split; [reflexivity|]. right. now exists name.
  - rewrite (load_config_no_file w Hfile). eexists [_; _]. now split.
  - rewrite (load_config_read_raises w name Hfile). exists [].
    split; [reflexivity|]. right. now exists name.
  - destruct (contains config "remote") eqn:Hsec.
    2: { rewrite (load_config_no_section w config Hfile Hsec). eexists [_].
         now split. }
    destruct (reads_cleanly config) eqn:Hclean.
    2: { destruct (load_config_get_raises w config Hfile Hsec Hclean)
           as [name ->].
         exists []. split; [reflexivity|]. right. now exists name. }
    rewrite (load_config_read w config Hfile Hsec Hclean).
    destruct (missing_values config) as [|m ms].
    2: { eexists [_]. now split. }
    destruct (int w (port_text config)) as [p|].
    + exists []. split; [reflexivity|]. left. eexists _, config. now split.
    + eexists [_]. now split.
Qed.

Lemma load_config_cases (w : world) :
  (exists cfg,
     load_config w
     = ([PathExists (CONFIG_PATH w); ConfigRead (CONFIG_PATH w)], Ret cfg))
  \/ (outcome (load_config w) = SysExit 1
      /\ existsb is_stderr (trace (load_config w)) = true)
  \/ (exists name, outcome (load_config w) = Uncaught name).
Proof.
  destruct (load_config_shape w) as (diags & Htrace & Hout).
  destruct diags as [|d diags].
  - destruct Hout as [(cfg & config & Hret & Hfile) | [name Hraise]].
    + left. exists cfg. rewrite Hfile in Htrace.
      destruct (load_config w) as [tr r]. cbn in *. now subst.
    + right. right. now exists name.
  - right. left. split; [exact Hout|]. rewrite Htrace.
    cbn [existsb is_stderr]. rewrite existsb_app. cbn.
    now rewrite orb_true_r.
Qed.

Lemma load_config_returns (w : world) (cfg : RemoteConfig) :
  outcome (load_config w) = Ret cfg ->
  load_config w
  = ([PathExists (CONFIG_PATH w); ConfigRead (CONFIG_PATH w)], Ret cfg).
Proof.
  destruct (load_config_cases w) as [[cfg' H] | [[H _] | [name H]]]; rewrite H.
  - simpl. now intros [= ->].
  - discriminate.
  - discriminate.
Qed.

Lemma launches_map_stderr (lines : list string) :
  launches (map Stderr lines) = [].
Proof. induction lines; [reflexivity | assumption]. Qed.

Lemma network_map_stderr (lines : list string) :
  forallb (fun e => negb (network_or_process e)) (map Stderr lines) = true.
Proof. induction lines; [reflexivity | assumption]. Qed.

Lemma load_config_no_network (w : world) :
  forallb (fun e => negb (network_or_process e)) (trace (load_config w)) = true
  /\ launches (trace (load_config w)) = [].
Proof.
  destruct (load_config_shape w) as (diags & -> & _).
  destruct (config_file w); cbn [forallb launches app network_or_process negb andb];
    now rewrite network_map_stderr, launches_map_stderr.
Qed.

Lemma run_remote_command_load_exit (w : world) (remote_cmd : list string)
    (cmd_label : option string) (show_banner : bool) (code : Z) :
  outcome (load_config w) = SysExit code ->
  run_remote_command w remote_cmd cmd_label show_banner
  = (trace (load_config w), SysExit code).
Proof. intros H. unfold run_remote_command. now apply bind_exit. Qed.

Lemma run_remote_command_load_raises (w : world) (remote_cmd : list string)
    (cmd_label : option string) (show_banner : bool) (name : string) :
  outcome (load_config w) = Uncaught name ->
  run_remote_command w remote_cmd cmd_label show_banner
  = (trace (load_config w), Uncaught name).
Proof.
  intros H. unfold run_remote_command.
  destruct (load_config w) as [tr r]. cbn in *. now subst.
Qed.

Lemma truthy_found_clean (o : get_outcome) :
  truthy (found o) = true -> raises o = false.
Proof. destruct o; [reflexivity | reflexivity | discriminate]. Qed.




(** C5, as stated, fails twice over.  The port is only looked at once the
    required options are present: a section that holds nothing but
    [port = abc] supplies an unparsable port, and [load_config] reports
    the missing options instead.  And a port that [get] cannot hand out,
    such as [port = 80%], ends [load_config] in [InterpolationSyntaxError]
    with no diagnostic. *)
Lemma port_rejected_counterexample :
  (supplies_unparsable_port
     (sample_world (<["port" := "abc"]> ∅) (fun _ => gaierror) (fun _ => Completed 0))
   /\ ~ port_rejected
         (sample_world (<["port" := "abc"]> ∅) (fun _ => gaierror)
            (fun _ => Completed 0)))
  /\ (load_config (percent_port_world sample_remote)
      = ([PathExists sample_path; ConfigRead sample_path],
         Uncaught "InterpolationSyntaxError")
      /\ ~ port_rejected (percent_port_world sample_remote)).
Proof.
  split; split.
  - exists (plain_parser (<["remote" := <["port" := "abc"]> ∅]> ∅)), "abc".
    repeat split; reflexivity.
  - intros (text & Hin & _).
    change (In (Stderr ("Invalid port in config: " +:+ text))
              [PathExists sample_path; ConfigRead sample_path;
               Stderr "Missing values in [remote] section: host, user, key"])
      in Hin.
    destruct Hin as [H | [H | [H | []]]]; discriminate H.
  - reflexivity.
  - intros (text & _ & Hexit). discriminate Hexit.
Qed.

(** C5, amended: when the file is read, has a [[remote]] section, [get]
    finds non-empty values for [host], [user] and [key] and does not
    raise for the port, [load_config] exits with status 1 and the
    invalid-port diagnostic exactly when [int] rejects the port text (the
    value found, or ["22"] when none is found); otherwise it returns the
    configuration with the integer [int] gives, whatever that integer
    is, which is 22 when no port is found. *)
Theorem load_config_port (w : world) (config : ConfigParser) :
  config_file w = Parsed config ->
  contains config "remote" = true ->
  truthy (found (get config "remote" "host")) = true ->
  truthy (found (get config "remote" "user")) = true ->
  truthy (found (get config "remote" "key")) = true ->
  raises (get config "remote" "port") = false ->
  (port_rejected w <-> int w (port_text config) = None)
  /\ (forall text, get config "remote" "port" = Found text -> int w text = None ->
        load_config w
        = ([PathExists (CONFIG_PATH w); ConfigRead (CONFIG_PATH w);
            Stderr ("Invalid port in config: " +:+ text)],
           SysExit 1))
  /\ (forall text p, get config "remote" "port" = Found text ->
        int w text = Some p ->
        exists cfg, outcome (load_config w) = Ret cfg /\ port cfg = p)
  /\ (get config "remote" "port" = NotFound -> int w "22" = Some 22 ->
        exists cfg, outcome (load_config w) = Ret cfg /\ port cfg = 22).
Proof.
  intros Hfile Hsec Hh Hu Hk Hp.
  pose proof (missing_values_none config Hh Hu Hk) as Hmiss.
  assert (Hclean : reads_cleanly config = true).
  { unfold reads_cleanly. cbn [forallb].
    now rewrite (truthy_found_clean _ Hh), (truthy_found_clean _ Hu),
      (truthy_found_clean _ Hk), Hp. }
  assert (Hbad : int w (port_text config) = None ->
            load_config w
            = ([PathExists (CONFIG_PATH w); ConfigRead (CONFIG_PATH w);
                Stderr ("Invalid port in config: " +:+ port_text config)],
               SysExit 1))
    by apply (load_config_bad_port w config Hfile Hsec Hclean Hmiss).
  assert (Hgood : forall p, int w (port_text config) = Some p ->
            exists cfg, outcome (load_config w) = Ret cfg /\ port cfg = p).
  { intros p Hint.
    rewrite (load_config_ok w config p Hfile Hsec Hclean Hmiss Hint).
    eexists. split; reflexivity. }
  split; [|split; [|split]].
  - split.
    + intros (text & _ & Hexit).
      destruct (int w (port_text config)) as [p|] eqn:Hint; [|reflexivity].
      destruct (Hgood p eq_refl) as (cfg & Hret & _).
      rewrite Hret in Hexit. discriminate Hexit.
    + intros Hnone. exists (port_text config). rewrite (Hbad Hnone).
      split; [|reflexivity]. right. right. left. reflexivity.
  - intros text Hfound Hnone. unfold port_text in Hbad.
    rewrite Hfound in Hbad. now apply Hbad.
  - intros text p Hfound Hint. apply Hgood. unfold port_text.
    now rewrite Hfound.
  - intros Hnot Hint. apply Hgood. unfold port_text. now rewrite Hnot.
Qed.

(** The sample of the specification: [port = abc] is rejected. *)
Lemma load_config_port_witness :
  load_config
    (sample_world (<["port" := "abc"]> sample_remote) (fun _ => gaierror)
       (fun _ => Completed 0))
  = ([PathExists sample_path; ConfigRead sample_path;
      Stderr "Invalid port in config: abc"],
     SysExit 1).
Proof.
  destruct (load_config_port
              (sample_world (<["port" := "abc"]> sample_remote)
                 (fun _ => gaierror) (fun _ => Completed 0))
              (plain_parser (<["remote" := <["port" := "abc"]> sample_remote]> ∅)))
    as (_ & H & _).
  - reflexivity.
  - reflexivity.
  - reflexivity.
  - reflexivity.
  - reflexivity.
  - reflexivity.
  - apply (H "abc"); reflexivity.
Defined.

Example load_config_default_port :
  load_config (sample_world sample_remote (fun _ => gaierror) (fun _ => Completed 0))
  = ([PathExists sample_path; ConfigRead sample_path],
     Ret (mkRemoteConfig "box.example" "op" "/home/op/.ssh/id" 22)).
Proof. reflexivity. Qed.

(** ** Configuration failures *)




(** ** Dispatcher *)

Lemma run_remote_command_loaded (w : world) (tr : list event)
    (cfg : RemoteConfig) (remote_cmd : list string)
    (cmd_label : option string) (show_banner : bool) (ip : string) :
  load_config w = (tr, Ret cfg) ->
  outcome (resolve_ip w (host cfg)) = Ret ip ->
  run_remote_command w remote_cmd cmd_label show_banner
  = (tr ++ Resolve (host cfg)
        :: (if show_banner
            then [Stdout (banner cfg remote_cmd cmd_label ip)]
            else [])
        ++ Launch (build_ssh_command cfg remote_cmd)
        :: launch_events (subprocess_run w (build_ssh_command cfg remote_cmd)),
     launch_result (subprocess_run w (build_ssh_command cfg remote_cmd))).
Proof.
  intros Hload Hip. unfold run_remote_command. rewrite Hload.
  unfold resolve_ip in *.
  cbv beta iota zeta delta [bind emit print print_stderr ret raise outcome snd]
    in *.
  destruct (gethostbyname w (host cfg)); try discriminate Hip;
    injection Hip as <-;
    destruct show_banner,
      (subprocess_run w (build_ssh_command cfg remote_cmd)); reflexivity.
Qed.

Lemma run_remote_command_lookup_raises (w : world) (tr : list event)
    (cfg : RemoteConfig) (remote_cmd : list string)
    (cmd_label : option string) (show_banner : bool) (name : string) :
  load_config w = (tr, Ret cfg) ->
  gethostbyname w (host cfg) = OtherLookupError name ->
  run_remote_command w remote_cmd cmd_label show_banner
  = (tr ++ [Resolve (host cfg)], Uncaught name).
Proof.
  intros Hload Hraise. unfold run_remote_command, resolve_ip.
  rewrite Hload. cbv beta iota zeta delta [bind emit]. rewrite Hraise.
  reflexivity.
Qed.




Lemma launches_lookup_raises (w : world) (tr : list event) (cfg : RemoteConfig)
    (remote_cmd : list string) (cmd_label : option string)
    (show_banner : bool) (name : string) :
  load_config w = (tr, Ret cfg) ->
  gethostbyname w (host cfg) = OtherLookupError name ->
  launches (trace (run_remote_command w remote_cmd cmd_label show_banner)) = [].
Proof.
  intros Hload Hraise.
  rewrite (run_remote_command_lookup_raises w tr cfg remote_cmd cmd_label
             show_banner name Hload Hraise).
  assert (Hret : outcome (load_config w) = Ret cfg) by now rewrite Hload.
  apply load_config_returns in Hret. rewrite Hload in Hret.
  injection Hret as ->. reflexivity.
Qed.

Lemma resolve_ip_returns_or_raises (w : world) (hostname : string) :
  (exists ip, outcome (resolve_ip w hostname) = Ret ip)
  \/ (exists name, gethostbyname w hostname = OtherLookupError name).
Proof.
  unfold resolve_ip.
  destruct (gethostbyname w hostname) as [ip| | |name];
    [left; now exists ip | left; now exists "unknown"
    | left; now exists "unknown" | right; now exists name].
Qed.


(** C2: the claim holds of the launch but not of every invocation with
    a configuration that loads.  With [host = a..b] the configuration
    loads, the lookup raises [UnicodeError], which [resolve_ip] does not
    catch, and [run_remote_command] ends there: with [ssh] absent from
    the machine the result is not 1 but that exception, and nothing has
    been launched or written to the error stream. *)
Theorem run_remote_command_lookup_defect :
  load_config
    (sample_world (<["host" := "a..b"]> sample_remote) idna_resolver
       (fun _ => FileNotFoundError))
  = ([PathExists sample_path; ConfigRead sample_path],
     Ret (mkRemoteConfig "a..b" "op" "/home/op/.ssh/id" 22))
  /\ subprocess_run
       (sample_world (<["host" := "a..b"]> sample_remote) idna_resolver
          (fun _ => FileNotFoundError))
       (build_ssh_command (mkRemoteConfig "a..b" "op" "/home/op/.ssh/id" 22)
          ["uname"; "-a"])
     = FileNotFoundError
  /\ run_remote_command
       (sample_world (<["host" := "a..b"]> sample_remote) idna_resolver
          (fun _ => FileNotFoundError))
       ["uname"; "-a"] None true
     = ([PathExists sample_path; ConfigRead sample_path; Resolve "a..b"],
        Uncaught "UnicodeError").
Proof. repeat split. Qed.

(** ** HostResolver *)

(** C3: [resolve_ip] is written to fold a failed lookup into
    ["unknown"], and misses the failures that are no [OSError].  For the
    host name [a..b] the lookup raises [UnicodeError]; it leaves
    [resolve_ip], and [run_remote_command] ends before anything is
    launched. *)
Theorem resolve_ip_unicode_error :
  resolve_ip
    (sample_world (<["host" := "a..b"]> sample_remote)
       idna_resolver (fun _ => Completed 0))
    "a..b"
  = ([Resolve "a..b"], Uncaught "UnicodeError")
  /\ run_remote_command
       (sample_world (<["host" := "a..b"]> sample_remote)
          idna_resolver (fun _ => Completed 0))
       ["uname"; "-a"] (Some "uname") true
     = ([PathExists sample_path; ConfigRead sample_path; Resolve "a..b"],
        Uncaught "UnicodeError")
  /\ launches
       (trace (run_remote_command
                 (sample_world (<["host" := "a..b"]> sample_remote)
                    idna_resolver (fun _ => Completed 0))
                 ["uname"; "-a"] (Some "uname") true)) = []
  /\ ~ (forall (w : world) (hostname : string),
          exists ip, outcome (resolve_ip w hostname) = Ret ip).
Proof.
  split; [reflexivity | split; [reflexivity | split; [reflexivity|]]].
  intros Hnever.
  destruct (Hnever
              (sample_world (<["host" := "a..b"]> sample_remote)
                 idna_resolver (fun _ => Completed 0))
              "a..b") as [ip Hip].
  discriminate Hip.
Qed.

(** ** The banner *)

Lemma banner_shape (cfg : RemoteConfig) (remote_cmd : list string)
    (cmd_label : option string) (ip : string) :
  exists label,
    banner cfg remote_cmd cmd_label ip
    = "Running " +:+ label +:+ " on host " +:+ host cfg +:+ " with IP " +:+ ip.
Proof. eexists. reflexivity. Qed.

(** C10: without a label, the banner names the first element of the
    remote command, or ["command"] when the remote command is empty; with
    or without a label the banner line holds the configured host and the
    resolved address, and when the banner is shown that line is what
    [run_remote_command] prints to standard output. *)
Theorem banner_default_label (cfg : RemoteConfig) :
  (forall first rest ip,
     banner cfg (first :: rest) None ip
     = "Running " +:+ first +:+ " on host " +:+ host cfg +:+ " with IP " +:+ ip)
  /\ (forall ip,
        banner cfg [] None ip
        = "Running command on host " +:+ host cfg +:+ " with IP " +:+ ip)
  /\ (forall remote_cmd cmd_label ip,
        occurs_in (host cfg) (banner cfg remote_cmd cmd_label ip)
        /\ occurs_in ip (banner cfg remote_cmd cmd_label ip))
  /\ (forall w tr remote_cmd cmd_label ip,
        load_config w = (tr, Ret cfg) ->
        outcome (resolve_ip w (host cfg)) = Ret ip ->
        In (Stdout (banner cfg remote_cmd cmd_label ip))
          (trace (run_remote_command w remote_cmd cmd_label true))).
Proof.
  split; [|split; [|split]].
  - reflexivity.
  - reflexivity.
  - intros remote_cmd cmd_label ip.
    destruct (banner_shape cfg remote_cmd cmd_label ip) as [label ->].
    split.
    + do 3 apply occurs_in_append_l. apply occurs_in_append_r, occurs_in_refl.
    + do 5 apply occurs_in_append_l. apply occurs_in_refl.
  - intros w tr remote_cmd cmd_label ip Hload Hip.
    rewrite (run_remote_command_loaded w tr cfg remote_cmd cmd_label true ip
               Hload Hip).
    unfold trace. cbn [fst]. apply in_or_app. right. right. left. reflexivity.
Qed.

(** The banner of the sample machine for a command without a label. *)
Lemma banner_default_label_witness :
  In (Stdout "Running uname on host box.example with IP 192.0.2.7")
    (trace (run_remote_command
              (sample_world sample_remote (fun _ => Address "192.0.2.7")
                 (fun _ => Completed 0))
              ["uname"; "-a"] None true)).
Proof.
  destruct (banner_default_label
              (mkRemoteConfig "box.example" "op" "/home/op/.ssh/id" 22))
    as (_ & _ & _ & H).
  apply (H (sample_world sample_remote (fun _ => Address "192.0.2.7")
              (fun _ => Completed 0))
           [PathExists sample_path; ConfigRead sample_path]
           ["uname"; "-a"] None "192.0.2.7"); reflexivity.
Defined.

(** ** The command line *)

(** C7: [rcr ping] and [rcr nslookup] without further arguments print two
    lines of guidance to the error stream and exit with status 1; nothing
    looks at the configuration and nothing is launched.  With at least one
    argument the remote command is [ping] (resp. [nslookup]) followed by
    the arguments, run under the label [ping] (resp. [nslookup]). *)
Theorem main_ping_nslookup (w : world) (prog : string) :
  main w [prog; "ping"]
  = ([Stderr "rcr ping requires ping arguments.";
      Stderr "Example: rcr ping 8.8.8.8 -c 4"],
     SysExit 1)
  /\ main w [prog; "nslookup"]
     = ([Stderr "rcr nslookup requires a hostname.";
         Stderr "Example: rcr nslookup example.com"],
        SysExit 1)
  /\ existsb touches_config (trace (main w [prog; "ping"])) = false
  /\ existsb network_or_process (trace (main w [prog; "ping"])) = false
  /\ existsb touches_config (trace (main w [prog; "nslookup"])) = false
  /\ existsb network_or_process (trace (main w [prog; "nslookup"])) = false
  /\ (forall arg args,
        main w (prog :: "ping" :: arg :: args)
        = (let* code :=
             run_remote_command w ("ping" :: arg :: args) (Some "ping") true
           in sys_exit code))
  /\ (forall arg args,
        main w (prog :: "nslookup" :: arg :: args)
        = (let* code :=
             run_remote_command w ("nslookup" :: arg :: args) (Some "nslookup") true
           in sys_exit code)).
Proof. repeat split. Qed.

(** C9: with [-h] or [--help] as first argument the usage text goes to the
    error stream and the exit status is 0; with no argument at all the
    same text goes to the error stream and the exit status is 1. *)
Theorem main_usage (w : world) (prog : string) (rest : list string) :
  main w (prog :: "-h" :: rest) = ([Stderr usage], SysExit 0)
  /\ main w (prog :: "--help" :: rest) = ([Stderr usage], SysExit 0)
  /\ main w [prog] = ([Stderr usage], SysExit 1)
  /\ main w [] = ([Stderr usage], SysExit 1).
Proof. repeat split. Qed.

(** * Further properties of the program *)

(** ** [main]: from the command line to the exit status *)

Lemma bind_sys_exit (m : M Z) :
  (let* code := m in sys_exit code) = (trace m, exit_with (outcome m)).
Proof.
  destruct m as [tr [code|code|name]]; cbn; [|reflexivity..].
  now rewrite app_nil_r.
Qed.

Lemma main_dispatched (w : world) (argv : list string) :
  dispatches argv = true ->
  main w argv
  = (let* code :=
       run_remote_command w (skipn 1 argv) (Some (nth 1 argv "")) true
     in sys_exit code).
Proof.
  destruct argv as [|prog [|command args]]; [discriminate..|].
  unfold dispatches, main. cbn [length nth skipn Nat.ltb Nat.leb orb].
  destruct (String.eqb command "-h"); [discriminate|].
  destruct (String.eqb command "--help"); [discriminate|].
  cbn [orb negb andb].
  destruct (String.eqb command "ping") eqn:Hping.
  { apply String.eqb_eq in Hping. subst command.
    destruct args; [discriminate|]. reflexivity. }
  destruct (String.eqb command "nslookup") eqn:Hns.
  { apply String.eqb_eq in Hns. subst command.
    destruct args; [discriminate|]. reflexivity. }
  reflexivity.
Qed.

Lemma main_not_dispatched (w : world) (argv : list string) :
  dispatches argv = false ->
  exists diagnostics code,
    main w argv = (map Stderr diagnostics, SysExit code)
    /\ (code = 0 ->
        exists prog rest,
          argv = prog :: "-h" :: rest \/ argv = prog :: "--help" :: rest).
Proof.
  destruct argv as [|prog [|command args]].
  - intros _. exists [usage], 1. split; [reflexivity | discriminate].
  - intros _. exists [usage], 1. split; [reflexivity | discriminate].
  - unfold dispatches, main. cbn [length nth skipn Nat.ltb Nat.leb orb].
    destruct (String.eqb command "-h") eqn:Hh.
    { intros _. apply String.eqb_eq in Hh. subst command.
      exists [usage], 0. split; [reflexivity|]. intros _. exists prog, args.
      now left. }
    destruct (String.eqb command "--help") eqn:Hhelp.
    { intros _. apply String.eqb_eq in Hhelp. subst command.
      exists [usage], 0. split; [reflexivity|]. intros _. exists prog, args.
      now right. }
    cbn [orb negb andb].
    destruct (String.eqb command "ping") eqn:Hping.
    { destruct args; [|discriminate]. intros _.
      exists ["rcr ping requires ping arguments.";
              "Example: rcr ping 8.8.8.8 -c 4"], 1.
      split; [reflexivity | discriminate]. }
    destruct (String.eqb command "nslookup") eqn:Hns.
    { destruct args; [|discriminate]. intros _.
      exists ["rcr nslookup requires a hostname.";
              "Example: rcr nslookup example.com"], 1.
      split; [reflexivity | discriminate]. }
    discriminate.
Qed.

(** X1: whenever [main] gets past the usage checks, the remote command is
    [sys.argv[1:]] as it stands and the label is [sys.argv[1]]; the [ping]
    and [nslookup] branches differ from the general one only in asking for
    an argument.  A help flag after the first argument is passed on like
    any other argument. *)
Theorem main_runs_argv_tail (w : world) (argv : list string) :
  dispatches argv = true ->
  main w argv
  = (trace (run_remote_command w (skipn 1 argv) (Some (nth 1 argv "")) true),
     exit_with
       (outcome (run_remote_command w (skipn 1 argv) (Some (nth 1 argv "")) true))).
Proof.
  intros H. rewrite (main_dispatched w argv H). apply bind_sys_exit.
Qed.

Lemma main_runs_argv_tail_witness :
  main (sample_world sample_remote (fun _ => gaierror) (fun _ => Completed 7))
    ["rcr"; "uname"; "--help"]
  = ([PathExists sample_path; ConfigRead sample_path; Resolve "box.example";
      Stdout "Running uname on host box.example with IP unknown";
      Launch ["ssh"; "-i"; "/home/op/.ssh/id"; "-p"; "22"; "op@box.example";
              "uname"; "--help"]],
     SysExit 7).
Proof.
  apply (main_runs_argv_tail
           (sample_world sample_remote (fun _ => gaierror) (fun _ => Completed 7))
           ["rcr"; "uname"; "--help"]).
  reflexivity.
Defined.

Lemma run_remote_command_cases (w : world) (remote_cmd : list string)
    (cmd_label : option string) (show_banner : bool) :
  (outcome (load_config w) = SysExit 1
   /\ run_remote_command w remote_cmd cmd_label show_banner
      = (trace (load_config w), SysExit 1))
  \/ (exists name,
        outcome (load_config w) = Uncaught name
        /\ run_remote_command w remote_cmd cmd_label show_banner
           = (trace (load_config w), Uncaught name))
  \/ (exists cfg name,
        load_config w
        = ([PathExists (CONFIG_PATH w); ConfigRead (CONFIG_PATH w)], Ret cfg)
        /\ gethostbyname w (host cfg) = OtherLookupError name
        /\ run_remote_command w remote_cmd cmd_label show_banner
           = ([PathExists (CONFIG_PATH w); ConfigRead (CONFIG_PATH w);
               Resolve (host cfg)],
              Uncaught name))
  \/ (exists cfg ip,
        load_config w
        = ([PathExists (CONFIG_PATH w); ConfigRead (CONFIG_PATH w)], Ret cfg)
        /\ outcome (resolve_ip w (host cfg)) = Ret ip
        /\ run_remote_command w remote_cmd cmd_label show_banner
           = ([PathExists (CONFIG_PATH w); ConfigRead (CONFIG_PATH w)]
                ++ Resolve (host cfg)
                   :: (if show_banner
                       then [Stdout (banner cfg remote_cmd cmd_label ip)]
                       else [])
                   ++ Launch (build_ssh_command cfg remote_cmd)
                   :: launch_events
                        (subprocess_run w (build_ssh_command cfg remote_cmd)),
              launch_result (subprocess_run w (build_ssh_command cfg remote_cmd)))).
Proof.
  destruct (load_config_cases w) as [[cfg Hload] | [[Hexit _] | [name Hraise]]].
  - right. right.
    destruct (resolve_ip_returns_or_raises w (host cfg)) as [[ip Hip] | [name Hraise]].
    + right. exists cfg, ip. repeat split; try assumption.
      now apply run_remote_command_loaded.
    + left. exists cfg, name. repeat split; try assumption.
      exact (run_remote_command_lookup_raises w _ cfg remote_cmd cmd_label
               show_banner name Hload Hraise).
  - left. split; [assumption|]. now apply run_remote_command_load_exit.
  - right. left. exists name. split; [assumption|].
    now apply run_remote_command_load_raises.
Qed.

(** X2: [main] exits with status 0 only when help was asked for with [-h]
    or [--help] as first argument, or when a process was launched and ran
    to completion with return code 0. *)
Theorem main_exit_zero (w : world) (argv : list string) :
  outcome (main w argv) = SysExit 0 ->
  (exists prog rest, argv = prog :: "-h" :: rest \/ argv = prog :: "--help" :: rest)
  \/ (exists ssh_cmd,
        In (Launch ssh_cmd) (trace (main w argv))
        /\ subprocess_run w ssh_cmd = Completed 0).
Proof.
  destruct (dispatches argv) eqn:Hd.
  - rewrite (main_dispatched w argv Hd), bind_sys_exit.
    unfold outcome at 1, trace at 1. cbn [fst snd].
    destruct (run_remote_command_cases w (skipn 1 argv) (Some (nth 1 argv "")) true)
      as [[_ Hrun] | [(name & _ & Hrun)
                     | [(cfg & name & _ & _ & Hrun) | (cfg & ip & _ & _ & Hrun)]]];
      rewrite Hrun; unfold outcome, trace; cbn [fst snd exit_with];
      [discriminate | discriminate | discriminate |].
    intros Hzero. right. exists (build_ssh_command cfg (skipn 1 argv)).
    split.
    + do 4 right. left. reflexivity.
    + destruct (subprocess_run w (build_ssh_command cfg (skipn 1 argv)));
        try discriminate Hzero.
      cbn in Hzero. now injection Hzero as ->.
  - destruct (main_not_dispatched w argv Hd) as (diags & code & Hmain & Hhelp).
    rewrite Hmain. cbn. intros [= ->]. left. now apply Hhelp.
Qed.

Lemma main_exit_zero_witness :
  exists ssh_cmd,
    In (Launch ssh_cmd)
      (trace (main (sample_world sample_remote (fun _ => gaierror)
                      (fun _ => Completed 0))
                ["rcr"; "true"]))
    /\ ssh_cmd = ["ssh"; "-i"; "/home/op/.ssh/id"; "-p"; "22"; "op@box.example";
                  "true"].
Proof.
  destruct (main_exit_zero
              (sample_world sample_remote (fun _ => gaierror) (fun _ => Completed 0))
              ["rcr"; "true"]) as [(prog & rest & [H | H]) | (ssh_cmd & Hin & _)].
  - reflexivity.
  - discriminate H.
  - discriminate H.
  - exists ssh_cmd. split; [exact Hin|].
    destruct Hin as [H | [H | [H | [H | [H | []]]]]]; try discriminate H.
    now injection H as <-.
Defined.




(** X4: when [load_config] does not return a configuration, [main] ends
    as [load_config] ended, whatever command was asked for: the same
    trace -- no lookup, no banner, no launch -- and the same way out,
    [sys.exit(1)] or the exception of the parser. *)
Theorem main_config_failure (w : world) (argv : list string) :
  dispatches argv = true ->
  (forall cfg, outcome (load_config w) <> Ret cfg) ->
  trace (main w argv) = trace (load_config w)
  /\ launches (trace (main w argv)) = []
  /\ (forall code, outcome (load_config w) = SysExit code ->
        code = 1 /\ outcome (main w argv) = SysExit 1)
  /\ (forall name, outcome (load_config w) = Uncaught name ->
        outcome (main w argv) = Uncaught name).
Proof.
  intros Hd Hfail. rewrite (main_dispatched w argv Hd), bind_sys_exit.
  destruct (load_config_no_network w) as [_ Hquiet].
  destruct (load_config_cases w) as [[cfg Hload] | [[Hexit _] | [name Hraise]]].
  - exfalso. apply (Hfail cfg). now rewrite Hload.
  - rewrite (run_remote_command_load_exit w _ _ _ 1 Hexit).
    unfold trace, outcome in *. cbn [fst snd exit_with] in *. rewrite Hexit.
    repeat split; try assumption; try discriminate; congruence.
  - rewrite (run_remote_command_load_raises w _ _ _ name Hraise).
    unfold trace, outcome in *. cbn [fst snd exit_with] in *. rewrite Hraise.
    repeat split; try assumption; try discriminate; congruence.
Qed.

Lemma main_config_failure_witness :
  trace (main (mkWorld sample_path NoFile py_int (fun _ => Address "192.0.2.7")
                 (fun _ => Completed 0))
           ["rcr"; "ping"; "8.8.8.8"])
  = [PathExists sample_path;
     Stderr "Config file not found: /home/op/.remote-cli-runner.ini";
     Stderr "Create it with a [remote] section (host, user, key, port)."].
Proof.
  destruct (main_config_failure
              (mkWorld sample_path NoFile py_int (fun _ => Address "192.0.2.7")
                 (fun _ => Completed 0))
              ["rcr"; "ping"; "8.8.8.8"]) as [H _].
  - reflexivity.
  - intros cfg. discriminate.
  - exact H.
Defined.

(** X5: an exception of the lookup that [resolve_ip] does not catch ends
    [main] right after the lookup: no banner, no launch, no diagnostic, and
    no exit status of the program's own. *)
Theorem main_lookup_exception (w : world) (argv : list string)
    (tr : list event) (cfg : RemoteConfig) (name : string) :
  dispatches argv = true ->
  load_config w = (tr, Ret cfg) ->
  gethostbyname w (host cfg) = OtherLookupError name ->
  main w argv
  = ([PathExists (CONFIG_PATH w); ConfigRead (CONFIG_PATH w); Resolve (host cfg)],
     Uncaught name).
Proof.
  intros Hd Hload Hraise.
  rewrite (main_dispatched w argv Hd), bind_sys_exit.
  rewrite (run_remote_command_lookup_raises w tr cfg _ _ _ name Hload Hraise).
  assert (Hret : outcome (load_config w) = Ret cfg) by now rewrite Hload.
  apply load_config_returns in Hret. rewrite Hload in Hret.
  injection Hret as ->. reflexivity.
Qed.

Lemma main_lookup_exception_witness :
  main (sample_world (<["host" := "a..b"]> sample_remote) idna_resolver
          (fun _ => Completed 0))
    ["rcr"; "uname"; "-a"]
  = ([PathExists sample_path; ConfigRead sample_path; Resolve "a..b"],
     Uncaught "UnicodeError").
Proof.
  apply (main_lookup_exception
           (sample_world (<["host" := "a..b"]> sample_remote) idna_resolver
              (fun _ => Completed 0))
           ["rcr"; "uname"; "-a"]
           [PathExists sample_path; ConfigRead sample_path]
           (mkRemoteConfig "a..b" "op" "/home/op/.ssh/id" 22)
           "UnicodeError"); reflexivity.
Defined.



(** ** [load_config]: what it reads and when it succeeds *)

Lemma truthy_found (o : get_outcome) :
  truthy (found o) = true ->
  o = Found (default "" (found o)) /\ default "" (found o) <> "".
Proof. destruct o as [[|c s]| |]; try discriminate. now split. Qed.

(** X7: [load_config] returns a configuration exactly when the file is
    read, [remote] is among its sections, [get] finds non-empty values
    for [host], [user] and [key], does not raise for the port, and [int]
    accepts the port text (the value found, or ["22"]); the returned
    fields are those values and that integer. *)
Theorem load_config_returns_iff (w : world) (cfg : RemoteConfig) :
  outcome (load_config w) = Ret cfg
  <-> exists config : ConfigParser,
        config_file w = Parsed config
        /\ contains config "remote" = true
        /\ get config "remote" "host" = Found (host cfg) /\ host cfg <> ""
        /\ get config "remote" "user" = Found (user cfg) /\ user cfg <> ""
        /\ get config "remote" "key" = Found (key cfg) /\ key cfg <> ""
        /\ raises (get config "remote" "port") = false
        /\ int w (port_text config) = Some (port cfg).
Proof.
  split.
  - intros Hret.
    destruct (config_file w) as [name| |name|config] eqn:Hfile.
    { rewrite (load_config_exists_raises w name Hfile) in Hret. discriminate Hret. }
    { rewrite (load_config_no_file w Hfile) in Hret. discriminate Hret. }
    { rewrite (load_config_read_raises w name Hfile) in Hret. discriminate Hret. }
    destruct (contains config "remote") eqn:Hsec.
    2: { rewrite (load_config_no_section w config Hfile Hsec) in Hret.
         discriminate Hret. }
    destruct (reads_cleanly config) eqn:Hclean.
    2: { destruct (load_config_get_raises w config Hfile Hsec Hclean) as [name H].
         rewrite H in Hret. discriminate Hret. }
    rewrite (load_config_read w config Hfile Hsec Hclean) in Hret.
    destruct (missing_values config) as [|m ms] eqn:Hmiss; [|discriminate Hret].
    destruct (int w (port_text config)) as [p|] eqn:Hint; [|discriminate Hret].
    injection Hret as <-. cbn [host user key port].
    assert (Hall : forall name, In name ["host"; "user"; "key"] ->
                     truthy (found (get config "remote" name)) = true).
    { intros name Hin.
      destruct (truthy (found (get config "remote" name))) eqn:Ht; [reflexivity|].
      assert (Hm : In name (missing_values config))
        by now apply missing_values_spec.
      rewrite Hmiss in Hm. destruct Hm. }
    exists config.
    destruct (truthy_found _ (Hall "host" ltac:(simpl; tauto))) as [Hh Hhne].
    destruct (truthy_found _ (Hall "user" ltac:(simpl; tauto))) as [Hu Hune].
    destruct (truthy_found _ (Hall "key" ltac:(simpl; tauto))) as [Hk Hkne].
    repeat split; try assumption.
    unfold reads_cleanly in Hclean. cbn [forallb] in Hclean.
    do 3 (apply andb_prop in Hclean as [_ Hclean]).
    apply andb_prop in Hclean as [Hp _]. now apply negb_true_iff in Hp.
  - intros (config & Hfile & Hsec & Hh & Hhne & Hu & Hune & Hk & Hkne & Hp & Hint).
    assert (Htruthy : forall s : string, s <> "" -> truthy (Some s) = true).
    { intros [|c s] Hs; [contradiction | reflexivity]. }
    rewrite (load_config_ok w config (port cfg) Hfile Hsec).
    + rewrite Hh, Hu, Hk. now destruct cfg.
    + unfold reads_cleanly. cbn [forallb]. now rewrite Hh, Hu, Hk, Hp.
    + apply missing_values_none;
        [rewrite Hh | rewrite Hu | rewrite Hk]; now apply Htruthy.
    + exact Hint.
Qed.

(** X8: once the four values are read without an exception,
    [load_config] looks at nothing but the path, what [get] found for
    [host], [user] and [key], and the integer [int] gives for the port
    text: two machines that agree on these get the same result, however
    the port is written and whatever else differs between them. *)
Theorem load_config_reads_only_connection (w1 w2 : world)
    (config1 config2 : ConfigParser) (n : Z) :
  CONFIG_PATH w1 = CONFIG_PATH w2 ->
  config_file w1 = Parsed config1 -> contains config1 "remote" = true ->
  config_file w2 = Parsed config2 -> contains config2 "remote" = true ->
  reads_cleanly config1 = true ->
  get config1 "remote" "host" = get config2 "remote" "host" ->
  get config1 "remote" "user" = get config2 "remote" "user" ->
  get config1 "remote" "key" = get config2 "remote" "key" ->
  raises (get config2 "remote" "port") = false ->
  int w1 (port_text config1) = Some n ->
  int w2 (port_text config2) = Some n ->
  load_config w1 = load_config w2.
Proof.
  intros Hpath Hf1 Hs1 Hf2 Hs2 Hc1 Hh Hu Hk Hp Hi1 Hi2.
  assert (Hc2 : reads_cleanly config2 = true).
  { unfold reads_cleanly in *. cbn [forallb] in *. rewrite <- Hh, <- Hu, <- Hk, Hp.
    repeat (apply andb_prop in Hc1 as [? Hc1]).
    repeat (apply andb_true_intro; split; try assumption); reflexivity. }
  assert (Hmiss : missing_values config1 = missing_values config2).
  { unfold missing_values. cbn [List.filter]. now rewrite Hh, Hu, Hk. }
  rewrite (load_config_read w1 config1 Hf1 Hs1 Hc1),
    (load_config_read w2 config2 Hf2 Hs2 Hc2).
  now rewrite Hmiss, Hi1, Hi2, Hpath, Hh, Hu, Hk.
Qed.

Lemma load_config_reads_only_connection_witness :
  load_config
    (mkWorld sample_path
       (Parsed (plain_parser
                  (<["backup" := sample_remote]>
                     (<["remote" := <["port" := " +0_022 "]>
                                      (<["comment" := "lab"]> sample_remote)]> ∅))))
       py_int (fun _ => gaierror) (fun _ => FileNotFoundError))
  = load_config
      (sample_world sample_remote (fun _ => Address "192.0.2.7")
         (fun _ => Completed 0)).
Proof.
  apply (load_config_reads_only_connection _ _
           (plain_parser
              (<["backup" := sample_remote]>
                 (<["remote" := <["port" := " +0_022 "]>
                                  (<["comment" := "lab"]> sample_remote)]> ∅)))
           (plain_parser (<["remote" := sample_remote]> ∅)) 22); reflexivity.
Defined.

Lemma missing_values_with_port (config : ConfigParser) (answer : get_outcome) :
  missing_values (with_option config "port" answer) = missing_values config.
Proof. reflexivity. Qed.

(** X9: while a required value is missing, a port that [get] hands out
    without an exception is never examined and [int] is never called:
    whatever the port text, valid or not, and whatever else the machine
    is, [load_config] ends with the same missing-values diagnostic. *)
Theorem load_config_port_unread_when_missing (w w' : world)
    (config : ConfigParser) (answer : get_outcome) :
  config_file w = Parsed config ->
  contains config "remote" = true ->
  reads_cleanly config = true ->
  missing_values config <> [] ->
  raises answer = false ->
  CONFIG_PATH w' = CONFIG_PATH w ->
  config_file w' = Parsed (with_option config "port" answer) ->
  load_config w' = load_config w.
Proof.
  intros Hfile Hsec Hclean Hmiss Hanswer Hpath Hfile'.
  rewrite (load_config_missing w config Hfile Hsec Hclean Hmiss).
  rewrite (load_config_missing w' (with_option config "port" answer) Hfile').
  - now rewrite missing_values_with_port, Hpath.
  - exact Hsec.
  - unfold reads_cleanly in *. cbn [forallb] in *.
    repeat (apply andb_prop in Hclean as [? Hclean]).
    change (get (with_option config "port" answer) "remote" "host")
      with (get config "remote" "host").
    change (get (with_option config "port" answer) "remote" "user")
      with (get config "remote" "user").
    change (get (with_option config "port" answer) "remote" "key")
      with (get config "remote" "key").
    change (get (with_option config "port" answer) "remote" "port") with answer.
    rewrite Hanswer.
    repeat (apply andb_true_intro; split; try assumption); reflexivity.
  - now rewrite missing_values_with_port.
Qed.

Lemma load_config_port_unread_when_missing_witness :
  load_config
    (mkWorld sample_path
       (Parsed (with_option
                  (plain_parser (<["remote" := delete "key" sample_remote]> ∅))
                  "port" (Found "not a port")))
       py_int (fun _ => gaierror) (fun _ => Completed 0))
  = ([PathExists sample_path; ConfigRead sample_path;
      Stderr "Missing values in [remote] section: key"],
     SysExit 1).
Proof.
  rewrite (load_config_port_unread_when_missing
             (sample_world (delete "key" sample_remote) (fun _ => gaierror)
                (fun _ => Completed 0))
             _
             (plain_parser (<["remote" := delete "key" sample_remote]> ∅))
             (Found "not a port"));
    [reflexivity | reflexivity | reflexivity | reflexivity | discriminate
    | reflexivity | reflexivity | reflexivity].
Defined.




(** X10: [load_config] first checks that the path exists, reads the file
    only when it does, and from then on writes diagnostics to the error
    stream and does nothing else.  It has written a diagnostic exactly
    when it leaves through [sys.exit], and the status is then 1; when it
    returns a configuration or an exception of [exists], [read] or [get]
    leaves it, it has written nothing. *)
Theorem load_config_trace_shape (w : world) :
  exists diagnostics,
    trace (load_config w)
    = PathExists (CONFIG_PATH w)
        :: match config_file w with
           | ExistsRaises _ | NoFile => []
           | ReadRaises _ | Parsed _ => [ConfigRead (CONFIG_PATH w)]
           end
        ++ map Stderr diagnostics
    /\ (diagnostics <> [] <-> exists code, outcome (load_config w) = SysExit code)
    /\ (forall code, outcome (load_config w) = SysExit code -> code = 1).
Proof.
  destruct (load_config_shape w) as (diags & Htrace & Hout).
  exists diags. split; [exact Htrace|].
  destruct diags as [|d diags].
  - split.
    + split; [intros H; now contradiction H|].
      intros [code Hexit].
      destruct Hout as [(cfg & config & H & _) | [name H]];
        rewrite H in Hexit; discriminate Hexit.
    + intros code Hexit.
      destruct Hout as [(cfg & config & H & _) | [name H]];
        rewrite H in Hexit; discriminate Hexit.
  - split.
    + split; [intros _; now exists 1 | discriminate].
    + intros code Hexit. rewrite Hout in Hexit. now injection Hexit.
Qed.

(** ** [run_remote_command]: what the banner flag changes, and how much
    one invocation can do *)



(** ** [build_ssh_command]: what the argument vector determines *)

Lemma str_inj (a b : Z) : str a = str b -> a = b.
Proof.
  intros H. pose proof (py_int_str a) as Ha. rewrite H, py_int_str in Ha.
  now injection Ha.
Qed.

(** X13: the argument vector determines the key, the port, the
    [user@host] destination and the remote command it was built from: two
    calls that build the same vector agree on all four. *)
Theorem build_ssh_command_inj (cfg1 cfg2 : RemoteConfig)
    (remote_cmd1 remote_cmd2 : list string) :
  build_ssh_command cfg1 remote_cmd1 = build_ssh_command cfg2 remote_cmd2 ->
  key cfg1 = key cfg2
  /\ port cfg1 = port cfg2
  /\ user cfg1 +:+ "@" +:+ host cfg1 = user cfg2 +:+ "@" +:+ host cfg2
  /\ remote_cmd1 = remote_cmd2.
Proof.
  unfold build_ssh_command. cbn [app].
  intros H. injection H as Hkey Hport Hdest Hcmd.
  repeat split; try assumption. now apply str_inj.
Qed.

Lemma build_ssh_command_inj_witness :
  port (mkRemoteConfig "box.example" "op" "/k" (-7))
  = port (mkRemoteConfig "box.example" "op" "/k" (-7))
  /\ ["uname"; "-a"] = ["uname"; "-a"].
Proof.
  destruct (build_ssh_command_inj
              (mkRemoteConfig "box.example" "op" "/k" (-7))
              (mkRemoteConfig "box.example" "op" "/k" (-7))
              ["uname"; "-a"] ["uname"; "-a"]) as (_ & Hp & _ & Hc).
  - reflexivity.
  - split; assumption.
Defined.

(** The destination alone does not tell user and host apart. *)
Example build_ssh_command_destination_ambiguous :
  build_ssh_command (mkRemoteConfig "c" "a@b" "/k" 22) []
  = build_ssh_command (mkRemoteConfig "b@c" "a" "/k" 22) [].
Proof. reflexivity. Qed.

(** ** What the launch and the lookup decide *)





(** ** Whole runs on the sample machine *)

Example main_ping_sample :
  main (sample_world sample_remote (fun _ => Address "192.0.2.7")
          (fun _ => Completed 2))
    ["rcr"; "ping"; "8.8.8.8"; "-c"; "4"]
  = ([PathExists sample_path; ConfigRead sample_path; Resolve "box.example";
      Stdout "Running ping on host box.example with IP 192.0.2.7";
      Launch ["ssh"; "-i"; "/home/op/.ssh/id"; "-p"; "22"; "op@box.example";
              "ping"; "8.8.8.8"; "-c"; "4"]],
     SysExit 2).
Proof. reflexivity. Qed.

Example main_passthrough_sample :
  main (sample_world (<["port" := " 2222 "]> sample_remote) (fun _ => gaierror)
          (fun _ => FileNotFoundError))
    ["rcr"; "systemctl"; "status"; "ssh"]
  = ([PathExists sample_path; ConfigRead sample_path; Resolve "box.example";
      Stdout "Running systemctl on host box.example with IP unknown";
      Launch ["ssh"; "-i"; "/home/op/.ssh/id"; "-p"; "2222"; "op@box.example";
              "systemctl"; "status"; "ssh"];
      Stderr ssh_not_found],
     SysExit 1).
Proof. reflexivity. Qed.
